(** * GeoPlot: from a state trajectory to time-series GeoJSON

    A shallow embedding of [src/geoplot.py]: the path reader [read_var] and
    the method [GeoPlot.render], which extracts coordinates and feature
    values from the final state of episodes, builds a timeline, assembles one
    feature collection per entity and writes two files.

    Python values are a small universe of JSON-like data ([pyval]); raised
    exceptions are the [Raise] branch of [result]; the file system is a finite
    map from paths to what was written, threaded through [render].  The two
    libraries the method calls, numpy and pandas, are interfaces ([Numpy],
    [Pandas]) with one instance each for their ordinary behaviour.

    [render_with] is the method for any step duration Python accepts (an
    [int] or a [float]) and any answer of the operating system to [open];
    [render] is the method for a step of whole seconds when both output
    files can be opened. *)

From Stdlib Require Import ZArith QArith Ascii SpecFloat.
From stdpp Require Import base option list strings gmap.

Local Open Scope string_scope.
Local Open Scope Z_scope.
Local Open Scope list_scope.

(** ** Exceptions and results *)

(** The exceptions that the modelled code can raise.  [PathNotFound] is the
    failure of the path resolver; the others carry Python's names. *)
Inductive exn :=
| PathNotFound
| IndexError
| TypeError
| KeyError
| ValueError
| OverflowError
| OSError
| OutOfBoundsTimedelta
| OutOfBoundsDatetime.

Inductive result (A : Type) :=
| Ok (a : A)
| Raise (e : exn).
Arguments Ok {A} a.
Arguments Raise {A} e.

#[global] Instance result_ret : MRet result := λ A, Ok.
#[global] Instance result_bind : MBind result :=
  λ A B f m, match m with Ok a => f a | Raise e => Raise e end.
#[global] Instance result_fmap : FMap result :=
  λ A B f m, match m with Ok a => Ok (f a) | Raise e => Raise e end.

(** [o ?! e]: the value of [o], or the exception [e] when there is none. *)
Definition or_raise {A} (o : option A) (e : exn) : result A :=
  match o with Some a => Ok a | None => Raise e end.
Infix "?!" := or_raise (at level 45, left associativity).

(** ** Python values *)

(** Numbers are kept by their value and text is ASCII; a mapping is an
    association list in insertion order, which is the order Python iterates
    its keys in.  [Complex] is a Python [complex], the scalar of a
    complex-valued array: a value that [json] cannot encode. *)
#[warnings="-register-all"] Inductive pyval :=
| Num (x : Q)
| Complex (re im : Q)
| Str (s : string)
| List (l : list pyval)
| Dict (d : list (string * pyval)).

(** [d.get(k)]: the value stored under the first occurrence of [k]. *)
Fixpoint assoc (d : list (string * pyval)) (k : string) : option pyval :=
  match d with
  | [] => None
  | (k', v) :: d' => if String.eqb k' k then Some v else assoc d' k
  end.

Definition char_str (c : ascii) : pyval := Str (String c EmptyString).

(** [iter(v)]: the elements of a list, the keys of a mapping, the characters
    of a string; a number is not iterable. *)
Definition py_iter (v : pyval) : result (list pyval) :=
  match v with
  | List l => Ok l
  | Dict d => Ok (map (λ kv, Str kv.1) d)
  | Str s => Ok (map char_str (String.list_ascii_of_string s))
  | Num _ | Complex _ _ => Raise TypeError
  end.

(** [v[i]] for a non-negative integer [i]. *)
Definition py_getitem (v : pyval) (i : nat) : result pyval :=
  match v with
  | List l => l !! i ?! IndexError
  | Str s => (char_str <$> String.get i s) ?! IndexError
  | Dict _ => Raise KeyError
  | Num _ | Complex _ _ => Raise TypeError
  end.

(** Whether [json] can encode a value: anything but a [complex], or a list
    or mapping that holds one. *)
Fixpoint json_encodable (v : pyval) : bool :=
  match v with
  | Num _ | Str _ => true
  | Complex _ _ => false
  | List l => forallb json_encodable l
  | Dict d => forallb (λ kv, json_encodable kv.2) d
  end.

(** ** Python numbers *)

(** A Python [float] is an IEEE 754 binary64 value; [float(z)] and the
    product round to nearest, ties to even. *)
Definition float_of_int (z : Z) : spec_float :=
  binary_normalize 53 1024 z 0 false.
Definition float_mul (x y : spec_float) : spec_float := SFmul 53 1024 x y.

(** [int(x)]: the float cut towards zero. *)
Definition int_of_float (x : spec_float) : result Z :=
  match x with
  | S754_zero _ => Ok 0
  | S754_finite s m e =>
      let magnitude := if 0 <=? e then Z.pos m * 2 ^ e else Z.pos m / 2 ^ (- e) in
      Ok (if s then - magnitude else magnitude)
  | S754_infinity _ => Raise OverflowError
  | S754_nan => Raise ValueError
  end.

(** A number as Python holds it: an [int] or a [float]. *)
Inductive number :=
| Int (z : Z)
| Float (x : spec_float).

(** ** The libraries *)

(** numpy, as far as [render] uses it. *)
Class Numpy := {
  (** [np.array(x).tolist()] *)
  np_array_tolist : pyval → result pyval;
  (** [np.array(x).flatten().tolist()]: always a flat Python list *)
  np_array_flatten_tolist : pyval → result (list pyval);
}.

(** pandas, as far as [render] uses it: which durations and instants (in
    nanoseconds) its [Timedelta] and [Timestamp] can hold, and the
    nanoseconds of [pd.Timedelta(seconds=x)] for a float [x]. *)
Class Pandas := {
  timedelta_fits : Z → bool;
  timestamp_fits : Z → bool;
  timedelta_of_float : spec_float → result Z;
}.

(** [pd.Timedelta(seconds=s)] in nanoseconds. *)
Definition seconds (s : Z) : Z := s * 1000000000.

(** The text [t.isoformat()] of the instant [t].  The rendering is
    injective, so the text is represented by the instant it spells. *)
Inductive isotime := IsoFormat (t : Z).
Definition instant (s : isotime) : Z := match s with IsoFormat t => t end.

(** ** The path reader *)

(** [re.split("/", var)]: the pieces of [var] between slashes. *)
Fixpoint re_split (sep : ascii) (var : string) : list string :=
  match var with
  | EmptyString => [EmptyString]
  | String c rest =>
      if Ascii.eqb c sep then EmptyString :: re_split sep rest
      else match re_split sep rest with
           | seg :: segs => String c seg :: segs
           | [] => [String c EmptyString]
           end
  end.

(** Modelled from the spec: the single lookup step of [get_by_path], whose
    body is not part of the sources.  Only a mapping is a lookup-capable
    container; a missing key and any other value give [PathNotFound]. *)
Definition lookup_key (v : pyval) (k : string) : result pyval :=
  match v with
  | Dict d => assoc d k ?! PathNotFound
  | _ => Raise PathNotFound
  end.

(** Modelled from the spec: [get_by_path] of [agent_torch.core.helpers] is
    imported by [geoplot.py] and its body is not part of the sources.  The
    spec's resolver contract: the container is walked with one key lookup per
    segment, left to right, the value at the final segment is returned, and
    the walk fails with [PathNotFound] when a segment is missing or the value
    reached is not a lookup-capable container. *)
Fixpoint get_by_path (root : pyval) (items : list string) : result pyval :=
  match items with
  | [] => Ok root
  | k :: items' => v ← lookup_key root k; get_by_path v items'
  end.

(** [read_var], lines 222-224. *)
Definition read_var (state : pyval) (var : string) : result pyval :=
  get_by_path state (re_split "/" var).

(** The resolver contract, as a relation: [walks root segments v] when
    following [segments] from [root], one mapping entry per segment, ends
    at [v]. *)
Inductive walks : pyval → list string → pyval → Prop :=
| walks_here v : walks v [] v
| walks_down d k v segments w :
    assoc d k = Some v → walks v segments w → walks (Dict d) (k :: segments) w.

(** [v] offers nothing under [k]: it is no mapping, or a mapping without
    the key. *)
Definition no_entry (v : pyval) (k : string) : Prop :=
  match v with
  | Dict d => assoc d k = None
  | _ => True
  end.

(** ** The visualizer *)

Record SimulationMetadata := {
  name : string;
  num_episodes : Z;
  num_steps_per_episode : Z;
}.

(** [config], of which [render] reads [config["simulation_metadata"]]. *)
Record Config := { simulation_metadata : SimulationMetadata }.

Record Options := {
  opt_cesium_token : string;
  opt_step_time : Z;
  opt_coordinates : string;
  opt_feature : string;
  opt_visualization_type : string;
}.

Record GeoPlot := {
  config : Config;
  cesium_token : string;
  step_time : Z;
  entity_position : string;
  entity_property : string;
  visualization_type : string;
}.

(** [GeoPlot.__init__], lines 228-243. *)
Definition GeoPlot_init (config : Config) (options : Options) : GeoPlot :=
  {| config := config;
     cesium_token := opt_cesium_token options;
     step_time := opt_step_time options;
     entity_position := opt_coordinates options;
     entity_property := opt_feature options;
     visualization_type := opt_visualization_type options |}.

(** A point feature: [geometry.coordinates], [properties.value] and
    [properties.time]; the constant [type] fields are left out. *)
Record Feature := {
  coordinates : list pyval;
  value : pyval;
  time : isotime;
}.

Record FeatureCollection := { features : list Feature }.

(** What a file holds: nothing yet (opened with mode ["w"]), the JSON dump
    of the collections, the beginning of that dump up to the first value
    that [json] cannot encode, or the template with its five placeholders
    substituted. *)
Inductive content :=
| Empty
| JsonDump (geojsons : list FeatureCollection)
| Truncated (geojsons : list FeatureCollection)
| Html (accessToken : string) (startTime stopTime : isotime)
       (data : list FeatureCollection) (visualType : string).

Abbreviation trajectory := (list (list pyval)) (only parsing).
Abbreviation files := (gmap string content).

Section render.
Context `{!Numpy, !Pandas}.

(** The body of the extraction loop, lines 254-259, for episode index [i]:
    the new [coords] replaces the old one, the flattened values are
    appended to [values]. *)
Definition render_extract_step (self : GeoPlot) (state_trajectory : trajectory)
    (values : list (list pyval)) (i : nat)
    : result (pyval * list (list pyval)) :=
  episode ← state_trajectory !! i ?! IndexError;
  final_state ← last episode ?! IndexError;
  position ← read_var final_state (entity_position self);
  coords ← np_array_tolist position;
  property ← read_var final_state (entity_property self);
  flat ← np_array_flatten_tolist property;
  mret (coords, values ++ [flat]).

(** The loop itself over a list of indices, threading [coords, values]. *)
Fixpoint render_extract_loop (self : GeoPlot) (state_trajectory : trajectory)
    (indices : list nat) (coords : pyval) (values : list (list pyval))
    : result (pyval * list (list pyval)) :=
  match indices with
  | [] => Ok (coords, values)
  | i :: indices' =>
      '(coords', values') ← render_extract_step self state_trajectory values i;
      render_extract_loop self state_trajectory indices' coords' values'
  end.

(** Lines 247 and 253-259: [coords, values = [], []] and the loop over
    [range(0, len(state_trajectory) - 1)].  The subtraction on [nat] stops
    at 0, and so does the range for an empty trajectory. *)
Definition render_extract (self : GeoPlot) (state_trajectory : trajectory)
    : result (pyval * list (list pyval)) :=
  render_extract_loop self state_trajectory
    (seq 0 (length state_trajectory - 1)) (List []) [].

(** [pd.Timedelta(seconds=i * step)] in nanoseconds: exact for an [int]
    step; for a [float] step the product is a float product and pandas cuts
    the seconds to its resolution. *)
Definition timedelta_seconds (i : nat) (step : number) : result Z :=
  match step with
  | Int z => Ok (seconds (Z.of_nat i * z))
  | Float x => timedelta_of_float (float_mul (float_of_int (Z.of_nat i)) x)
  end.

(** [start_time + pd.Timedelta(seconds=i * self.step_time)], line 264, for
    the step [step] that [self.step_time] holds. *)
Definition render_timestamp_with (step : number) (start_time : Z) (i : nat)
    : result Z :=
  delta ← timedelta_seconds i step;
  if negb (timedelta_fits delta) then Raise OutOfBoundsTimedelta
  else if negb (timestamp_fits (start_time + delta)) then Raise OutOfBoundsDatetime
  else Ok (start_time + delta).

(** The same for a step of [step_time self] whole seconds. *)
Definition render_timestamp (self : GeoPlot) (start_time : Z) (i : nat)
    : result Z :=
  render_timestamp_with (Int (step_time self)) start_time i.

(** The number of timestamps, lines 265-268: the length of
    [range(num_episodes * num_steps_per_episode)]. *)
Definition timeline_length (self : GeoPlot) : nat :=
  let metadata := simulation_metadata (config self) in
  Z.to_nat (num_episodes metadata * num_steps_per_episode metadata).

(** Lines 263-269. *)
Definition render_timestamps_with (step : number) (self : GeoPlot)
    (start_time : Z) : result (list Z) :=
  mapM (render_timestamp_with step start_time) (seq 0 (timeline_length self)).

Definition render_timestamps (self : GeoPlot) (start_time : Z)
    : result (list Z) :=
  render_timestamps_with (Int (step_time self)) self start_time.

(** The feature of entity [i] at one (time, value_list) pair, lines
    277-287; the subscripts are evaluated in the order of the literal. *)
Definition render_feature (i : nat) (coord : pyval)
    (pair : Z * list pyval) : result Feature :=
  let '(time, value_list) := pair in
  lon ← py_getitem coord 1;
  lat ← py_getitem coord 0;
  v ← value_list !! i ?! IndexError;
  mret {| coordinates := [lon; lat]; value := v; time := IsoFormat time |}.

(** One entity's collection, lines 274-289. *)
Definition render_collection (timestamps : list Z) (values : list (list pyval))
    (entity : nat * pyval) : result FeatureCollection :=
  let '(i, coord) := entity in
  fs ← mapM (render_feature i coord) (zip timestamps values);
  mret {| features := fs |}.

(** [enumerate(l)] *)
Definition enumerate {A} (l : list A) : list (nat * A) :=
  zip (seq 0 (length l)) l.

(** Lines 272-289. *)
Definition render_geojsons (coords : pyval) (timestamps : list Z)
    (values : list (list pyval)) : result (list FeatureCollection) :=
  entities ← py_iter coords;
  mapM (render_collection timestamps values) (enumerate entities).

(** Everything [render] computes before it opens a file, lines 247-289:
    the collections and the timestamps. *)
Definition render_encode_with (step : number) (self : GeoPlot) (start_time : Z)
    (state_trajectory : trajectory) : result (list FeatureCollection * list Z) :=
  '(coords, values) ← render_extract self state_trajectory;
  timestamps ← render_timestamps_with step self start_time;
  geojsons ← render_geojsons coords timestamps values;
  mret (geojsons, timestamps).

Definition render_encode (self : GeoPlot) (start_time : Z)
    (state_trajectory : trajectory) : result (list FeatureCollection * list Z) :=
  render_encode_with (Int (step_time self)) self start_time state_trajectory.

(** Whether [json.dump] gets through the collections: every coordinate and
    value of every feature can be encoded (the other fields are text). *)
Definition dumpable (geojsons : list FeatureCollection) : bool :=
  forallb (λ c, forallb (λ f, forallb json_encodable (coordinates f)
                               && json_encodable (value f))
                        (features c))
          geojsons.

Definition geodata_path (self : GeoPlot) : string :=
  name (simulation_metadata (config self)) +:+ ".geojson".
Definition geoplot_path (self : GeoPlot) : string :=
  name (simulation_metadata (config self)) +:+ ".html".

(** [GeoPlot.render], lines 246-309, for the step [step] held in
    [self.step_time].  [start_time] is what [pd.Timestamp.utcnow()]
    returns; [can_open] tells for each path whether [open(path, "w")]
    succeeds; [fs] is the file system before the call, the result carries the
    file system after it.

    Opening a file with mode ["w"] empties it at once.  [json.dump] writes
    the text piece by piece into the open file, so a value it cannot encode
    leaves the beginning of the text behind.  The template's arguments are
    evaluated while the second file is already open.  The template holds no
    placeholder besides the five that are substituted, and a write to an open
    file is taken to succeed. *)
Definition render_with (can_open : string → bool) (step : number)
    (self : GeoPlot) (start_time : Z)
    (state_trajectory : trajectory) (fs : files) : files * result () :=
  match render_encode_with step self start_time state_trajectory with
  | Raise e => (fs, Raise e)
  | Ok (geojsons, timestamps) =>
      if negb (can_open (geodata_path self)) then (fs, Raise OSError)
      else if negb (dumpable geojsons)
      then (<[geodata_path self := Truncated geojsons]> fs, Raise TypeError)
      else
        let fs := <[geodata_path self := JsonDump geojsons]> fs in
        if negb (can_open (geoplot_path self)) then (fs, Raise OSError)
        else
          let fs := <[geoplot_path self := Empty]> fs in
          match head timestamps, last timestamps with
          | Some first, Some final =>
              (<[geoplot_path self :=
                   Html (cesium_token self) (IsoFormat first) (IsoFormat final)
                        geojsons (visualization_type self)]> fs,
               Ok ())
          | _, _ => (fs, Raise IndexError)
          end
  end.

(** [GeoPlot.render] for a step of [step_time self] whole seconds, when
    both output files can be opened. *)
Definition render (self : GeoPlot) (start_time : Z)
    (state_trajectory : trajectory) (fs : files) : files * result () :=
  render_with (λ _, true) (Int (step_time self)) self start_time
    state_trajectory fs.

End render.

(** The collections a call left in the geojson file. *)
Definition written (out : files * result ()) (self : GeoPlot) : option content :=
  out.1 !! geodata_path self.

Section render_views.
Context `{!Numpy}.

(** What one pass of the loop body, lines 254-259, takes from an episode:
    the coordinates and the flattened values found in its final state. *)
Definition read_episode (self : GeoPlot) (episode : list pyval)
    : result (pyval * list pyval) :=
  final_state ← last episode ?! IndexError;
  position ← read_var final_state (entity_position self);
  coords ← np_array_tolist position;
  property ← read_var final_state (entity_property self);
  flat ← np_array_flatten_tolist property;
  mret (coords, flat).

(** The coordinates left after the loop: those of the last episode read,
    or the initial [[]] when none was read. *)
Definition retained (reads : list (pyval * list pyval)) : pyval :=
  default (List []) (fst <$> last reads).

End render_views.

(** ** The libraries' ordinary behaviour *)

Module Ordinary.

(** The shape numpy finds for a value: numbers, text and mappings are
    scalars (shape [()]); a list has a shape when its elements agree on
    theirs.  (numpy would also turn the numbers of an array that mixes
    them with text into text; simulation states hold no text.) *)
Fixpoint shape (v : pyval) : option (list nat) :=
  match v with
  | List l =>
      match l with
      | [] => Some [0%nat]
      | x :: xs =>
          s ← shape x;
          if forallb (λ y, bool_decide (shape y = Some s)) xs
          then Some (length l :: s) else None
      end
  | _ => Some []
  end.

(** The scalars of an array in row-major order. *)
Fixpoint ravel (v : pyval) : list pyval :=
  match v with
  | List l => flat_map ravel l
  | _ => [v]
  end.

(** numpy refuses a ragged nested list ("inhomogeneous shape"); for a
    rectangular one [tolist] gives back the nested list. *)
#[export] Instance numpy : Numpy := {|
  np_array_tolist v :=
    if shape v is Some _ then Ok v else Raise ValueError;
  np_array_flatten_tolist v :=
    if shape v is Some _ then Ok (ravel v) else Raise ValueError;
|}.

(** Nanoseconds in a signed 64-bit integer, the least value being kept
    for "not a time". *)
Definition int64_ns (x : Z) : bool :=
  (- (2 ^ 63 - 1) <=? x) && (x <=? 2 ^ 63 - 1).

(** [pd.Timedelta(seconds=x)] for a float [x]: the seconds times
    [1_000_000_000], as a float product, cut to an integer. *)
#[export] Instance pandas : Pandas := {|
  timedelta_fits := int64_ns;
  timestamp_fits := int64_ns;
  timedelta_of_float x := int_of_float (float_mul x (float_of_int 1000000000));
|}.

End Ordinary.

(** ** Sample runs *)

Module Sample.
Import Ordinary.

(** A state holding [agents/consumers/{coordinates, money_spent}], the
    paths of the usage example in the module's docstring. *)
Definition consumers (coordinates money_spent : pyval) : pyval :=
  Dict [("agents",
         Dict [("consumers",
                Dict [("coordinates", coordinates);
                      ("money_spent", money_spent)])])].

(** The state [{a: {b: {c: 42}}}]. *)
Definition nested : pyval :=
  Dict [("a", Dict [("b", Dict [("c", Num 42)])])].

Definition nums2 (a b : Q) : pyval := List [Num a; Num b].

Definition two_entities : pyval := List [nums2 1.0 2.0; nums2 3.0 4.0].

Definition plot (episodes steps : Z) : GeoPlot :=
  GeoPlot_init
    {| simulation_metadata :=
         {| name := "sim"; num_episodes := episodes;
            num_steps_per_episode := steps |} |}
    {| opt_cesium_token := "token";
       opt_step_time := 3600;
       opt_coordinates := "agents/consumers/coordinates";
       opt_feature := "agents/consumers/money_spent";
       opt_visualization_type := "color" |}.

(** 2026-01-01T00:00:00Z in nanoseconds since the epoch. *)
Definition new_year : Z := 1767225600000000000.

(** Two episodes of one step each: values [[10,20]] then [[30,40]]. *)
Definition two_episodes : trajectory :=
  [ [consumers two_entities (nums2 10 20)];
    [consumers two_entities (nums2 30 40)] ].


(** A third episode, values [[50,60]]. *)
Definition three_episodes : trajectory :=
  two_episodes ++ [ [consumers two_entities (nums2 50 60)] ].

(** Two episodes between which both entities moved. *)
Definition moved_entities : pyval := List [nums2 5.0 6.0; nums2 7.0 8.0].
Definition moving_episodes : trajectory :=
  [ [consumers two_entities (nums2 10 20)];
    [consumers moved_entities (nums2 30 40)] ].

(** Two coordinates, but three values in the first episode. *)
Definition surplus_episodes : trajectory :=
  [ [consumers two_entities (List [Num 10; Num 20; Num 99])];
    [consumers two_entities (nums2 30 40)] ].

(** Two coordinates, but a single value in the first episode. *)
Definition short_episodes : trajectory :=
  [ [consumers two_entities (List [Num 10])];
    [consumers two_entities (nums2 30 40)] ].

(** Two entities whose values are complex numbers. *)
Definition complex_episodes : trajectory :=
  [ [consumers two_entities (List [Complex 1 2; Complex 3 0])];
    [consumers two_entities (List [Complex 5 0; Complex 7 0])] ].

(** The float [1e-10], a tenth of a nanosecond in seconds:
    [0x1.b7cdfd9d7bdbbp-34]. *)
Definition tenth_of_ns : spec_float := S754_finite false 7737125245533627 (-86).

(** The float [0.5]. *)
Definition half_second : spec_float := S754_finite false 4503599627370496 (-53).

(** The operating system refuses to open the html file. *)
Definition no_html (path : string) : bool := negb (String.eqb path "sim.html").

(** A plot whose steps are [step] seconds long. *)
Definition plot_every (step episodes steps : Z) : GeoPlot :=
  GeoPlot_init
    {| simulation_metadata :=
         {| name := "sim"; num_episodes := episodes;
            num_steps_per_episode := steps |} |}
    {| opt_cesium_token := "token";
       opt_step_time := step;
       opt_coordinates := "agents/consumers/coordinates";
       opt_feature := "agents/consumers/money_spent";
       opt_visualization_type := "size" |}.

(** Coordinates given as one flat list of numbers. *)
Definition flat_episodes : trajectory :=
  [ [consumers (nums2 1.0 2.0) (nums2 10 20)];
    [consumers (nums2 1.0 2.0) (nums2 30 40)] ].

(** A first episode that recorded no state. *)
Definition hollow_episodes : trajectory :=
  [ []; [consumers two_entities (nums2 30 40)] ].

(** Episodes that also keep their initial state. *)
Definition long_episodes : trajectory :=
  [ [consumers moved_entities (nums2 0 0); consumers two_entities (nums2 10 20)];
    [consumers moved_entities (nums2 0 0); consumers two_entities (nums2 30 40)];
    [consumers moved_entities (nums2 0 0); consumers two_entities (nums2 50 60)] ].

End Sample.

(** * Properties *)

(** ** The result monad *)

Lemma bind_Ok {A B} (m : result A) (f : A → result B) b :
  m ≫= f = Ok b ↔ ∃ a, m = Ok a ∧ f a = Ok b.
Proof.
  destruct m as [a|e]; simpl; split.
  - intros Hf. by exists a.
  - by intros (a' & [= <-] & Hf).
  - intros [=].
  - by intros (? & [=] & _).
Qed.

Lemma bind_Raise {A B} (m : result A) (f : A → result B) e :
  m ≫= f = Raise e ↔ m = Raise e ∨ ∃ a, m = Ok a ∧ f a = Raise e.
Proof.
  destruct m as [a|e']; simpl; split.
  - intros Hf. right. by exists a.
  - intros [[=]|(a' & [= <-] & Hf)]. done.
  - intros [= ->]. by left.
  - intros [[= ->]|(? & [=] & _)]. done.
Qed.

Lemma or_raise_Ok {A} (o : option A) e a : o ?! e = Ok a ↔ o = Some a.
Proof. destruct o; simpl; split; congruence. Qed.

Lemma or_raise_Raise {A} (o : option A) e e' :
  o ?! e = Raise e' ↔ o = None ∧ e' = e.
Proof. destruct o; simpl; split; [done|by intros []|by intros [= ->]|by intros [_ ->]]. Qed.

(** [mapM] succeeds exactly when every call does, element by element. *)
Lemma mapM_Ok {A B} (f : A → result B) l ys :
  mapM f l = Ok ys ↔ Forall2 (λ x y, f x = Ok y) l ys.
Proof.
  revert ys. induction l as [|x l IH]; intros ys; simpl.
  - split; [intros [= <-]; constructor | by inversion 1].
  - rewrite bind_Ok. split.
    + intros (y & Hy & Hrest). apply bind_Ok in Hrest as (k & Hk & [= <-]).
      constructor; [done | by apply IH].
    + inversion 1 as [|? y ? k Hy Hk]; subst. exists y. split; [done|].
      apply bind_Ok. exists k. split; [by apply IH | done].
Qed.

Lemma mapM_Ok_length {A B} (f : A → result B) l ys :
  mapM f l = Ok ys → length ys = length l.
Proof. rewrite mapM_Ok. intros Hall. symmetry. by eapply Forall2_length. Qed.

Lemma mapM_Ok_lookup {A B} (f : A → result B) l ys j y :
  mapM f l = Ok ys → ys !! j = Some y → ∃ x, l !! j = Some x ∧ f x = Ok y.
Proof.
  rewrite mapM_Ok. intros Hall Hy.
  destruct (Forall2_lookup_r _ _ _ _ _ Hall Hy) as (x & Hx & Hf). eauto.
Qed.

(** The exception of a failed [mapM] is the exception of one of its calls. *)
Lemma mapM_Raise {A B} (f : A → result B) l e :
  mapM f l = Raise e → ∃ x, x ∈ l ∧ f x = Raise e.
Proof.
  induction l as [|x l IH]; simpl; [done|].
  rewrite bind_Raise. intros [Hx|(y & Hy & Hrest)].
  - exists x. split; [left | done].
  - apply bind_Raise in Hrest as [Hl|(k & _ & [=])].
    destruct (IH Hl) as (x' & Hin & Hx'). exists x'. split; [by right | done].
Qed.

(** A failing call makes [mapM] fail. *)
Lemma mapM_fails {A B} (f : A → result B) l x e :
  x ∈ l → f x = Raise e → ∃ e', mapM f l = Raise e'.
Proof.
  intros Hin Hx. destruct (mapM f l) as [ys|e'] eqn:Hm; [|by eauto].
  apply mapM_Ok in Hm. apply list_elem_of_lookup in Hin as [j Hj].
  destruct (Forall2_lookup_l _ _ _ _ _ Hm Hj) as (y & _ & Hy). congruence.
Qed.

(** ** The parts of [render] *)

Lemma enumerate_lookup {A} (l : list A) i k x :
  enumerate l !! i = Some (k, x) ↔ k = i ∧ l !! i = Some x.
Proof.
  unfold enumerate. rewrite lookup_zip_with_Some. split.
  - intros (k' & x' & [= -> ->] & Hk & Hx). apply lookup_seq in Hk as [-> _].
    by split.
  - intros [-> Hx]. exists i, x. split_and!; [done| |done].
    apply lookup_seq. split; [done|]. by eapply lookup_lt_Some.
Qed.

Lemma enumerate_length {A} (l : list A) : length (enumerate l) = length l.
Proof. unfold enumerate. rewrite length_zip_with, length_seq. lia. Qed.

Lemma paths_differ self : geodata_path self ≠ geoplot_path self.
Proof.
  unfold geodata_path, geoplot_path.
  induction (name (simulation_metadata (config self))) as [|c s IH]; simpl.
  - discriminate.
  - intros [= Heq]. by apply IH.
Qed.

Section render_facts.
Context `{!Numpy, !Pandas}.

(** The definitions for a step of whole seconds and files that open, spelt
    out. *)
Lemma render_timestamps_unfold self start_time :
  render_timestamps self start_time =
    mapM (render_timestamp self start_time) (seq 0 (timeline_length self)).
Proof. reflexivity. Qed.

Lemma render_encode_unfold self start_time traj :
  render_encode self start_time traj =
    render_extract self traj ≫= λ '(coords, values),
      render_timestamps self start_time ≫= λ timestamps,
        render_geojsons coords timestamps values ≫= λ geojsons,
          mret (geojsons, timestamps).
Proof. reflexivity. Qed.

Lemma render_unfold self start_time traj fs :
  render self start_time traj fs =
    match render_encode self start_time traj with
    | Raise e => (fs, Raise e)
    | Ok (geojsons, timestamps) =>
        if negb (dumpable geojsons)
        then (<[geodata_path self := Truncated geojsons]> fs, Raise TypeError)
        else
          let fs := <[geoplot_path self := Empty]>
                      (<[geodata_path self := JsonDump geojsons]> fs) in
          match head timestamps, last timestamps with
          | Some first, Some final =>
              (<[geoplot_path self :=
                   Html (cesium_token self) (IsoFormat first) (IsoFormat final)
                        geojsons (visualization_type self)]> fs,
               Ok ())
          | _, _ => (fs, Raise IndexError)
          end
    end.
Proof. reflexivity. Qed.

(** Every episode the loop reads adds one value list. *)
Lemma render_extract_loop_length self traj indices coords values coords' values' :
  render_extract_loop self traj indices coords values = Ok (coords', values') →
  length values' = (length values + length indices)%nat.
Proof.
  revert coords values. induction indices as [|i indices IH]; intros coords values; simpl.
  - intros [= _ <-]. lia.
  - rewrite bind_Ok. intros ([c v] & Hstep & Hloop).
    apply IH in Hloop as ->.
    unfold render_extract_step in Hstep.
    repeat (apply bind_Ok in Hstep as (? & _ & Hstep)).
    injection Hstep as _ <-. rewrite length_app. simpl. lia.
Qed.

Lemma render_extract_length self traj coords values :
  render_extract self traj = Ok (coords, values) →
  length values = (length traj - 1)%nat.
Proof.
  intros Hex. apply render_extract_loop_length in Hex.
  rewrite length_seq in Hex. simpl in Hex. lia.
Qed.

(** The timeline: one instant per index, [i * step_time] seconds after
    the start. *)
Lemma render_timestamp_Ok self start_time i t :
  render_timestamp self start_time i = Ok t →
  t = start_time + seconds (Z.of_nat i * step_time self).
Proof.
  unfold render_timestamp, render_timestamp_with. simpl.
  destruct (negb (timedelta_fits _)); [done|].
  destruct (negb (timestamp_fits _)); [done|]. by intros [= <-].
Qed.

Lemma render_timestamps_Ok self start_time ts :
  render_timestamps self start_time = Ok ts →
  length ts = timeline_length self ∧
  ∀ j t, ts !! j = Some t →
    t = start_time + seconds (Z.of_nat j * step_time self).
Proof.
  rewrite render_timestamps_unfold. intros Hts. split.
  - apply mapM_Ok_length in Hts. by rewrite length_seq in Hts.
  - intros j t Hj.
    destruct (mapM_Ok_lookup _ _ _ _ _ Hts Hj) as (i & Hi & Ht).
    apply lookup_seq in Hi as [-> _]. by apply render_timestamp_Ok in Ht.
Qed.

(** One collection: a feature per (timestamp, value list) pair of the
    zip, each built from the entity's own coordinate and value. *)
Lemma render_collection_Ok ts values i coord c :
  render_collection ts values (i, coord) = Ok c →
  length (features c) = (length ts `min` length values)%nat ∧
  ∀ j f, features c !! j = Some f →
    ∃ t value_list lon lat,
      ts !! j = Some t ∧ values !! j = Some value_list ∧
      py_getitem coord 1 = Ok lon ∧ py_getitem coord 0 = Ok lat ∧
      value_list !! i = Some (value f) ∧
      coordinates f = [lon; lat] ∧ time f = IsoFormat t.
Proof.
  unfold render_collection. rewrite bind_Ok.
  intros (fs & Hfs & [= <-]). simpl. split.
  - apply mapM_Ok_length in Hfs. by rewrite length_zip_with in Hfs.
  - intros j f Hj.
    destruct (mapM_Ok_lookup _ _ _ _ _ Hfs Hj) as ([t vl] & Hzip & Hf).
    apply lookup_zip_with_Some in Hzip as (t' & vl' & [= <- <-] & Ht & Hvl).
    unfold render_feature in Hf.
    apply bind_Ok in Hf as (lon & Hlon & Hf).
    apply bind_Ok in Hf as (lat & Hlat & Hf).
    apply bind_Ok in Hf as (v & Hv & [= <-]).
    apply or_raise_Ok in Hv. exists t, vl, lon, lat. by simpl.
Qed.

(** One collection per element of [coords], in order. *)
Lemma render_geojsons_Ok coords ts values geojsons :
  render_geojsons coords ts values = Ok geojsons →
  ∃ entities, py_iter coords = Ok entities ∧
    length geojsons = length entities ∧
    ∀ i c, geojsons !! i = Some c →
      ∃ coord, entities !! i = Some coord ∧
        render_collection ts values (i, coord) = Ok c.
Proof.
  unfold render_geojsons. rewrite bind_Ok. intros (entities & Hit & Hg).
  exists entities. split_and!; [done| |].
  - apply mapM_Ok_length in Hg. by rewrite enumerate_length in Hg.
  - intros i c Hi.
    destruct (mapM_Ok_lookup _ _ _ _ _ Hg Hi) as ([k coord] & Hk & Hc).
    apply enumerate_lookup in Hk as [-> Hcoord]. eauto.
Qed.

Lemma render_encode_Ok self start_time traj geojsons ts :
  render_encode self start_time traj = Ok (geojsons, ts) →
  ∃ coords values,
    render_extract self traj = Ok (coords, values) ∧
    render_timestamps self start_time = Ok ts ∧
    render_geojsons coords ts values = Ok geojsons.
Proof.
  rewrite render_encode_unfold, bind_Ok. intros ([coords values] & Hex & Hrest).
  apply bind_Ok in Hrest as (ts' & Hts & Hrest).
  apply bind_Ok in Hrest as (g & Hg & [= <- <-]). eauto.
Qed.

(** What a successful call leaves behind. *)
Lemma render_Ok self start_time traj fs fs' :
  render self start_time traj fs = (fs', Ok ()) →
  ∃ geojsons ts first final,
    render_encode self start_time traj = Ok (geojsons, ts) ∧
    head ts = Some first ∧ last ts = Some final ∧
    fs' !! geodata_path self = Some (JsonDump geojsons) ∧
    fs' !! geoplot_path self =
      Some (Html (cesium_token self) (IsoFormat first) (IsoFormat final)
                 geojsons (visualization_type self)).
Proof.
  rewrite render_unfold.
  destruct (render_encode self start_time traj) as [[geojsons ts]|e]; [|done].
  destruct (dumpable geojsons); simpl; [|done].
  destruct (head ts) as [first|] eqn:Hfirst; [|done].
  destruct (last ts) as [final|] eqn:Hfinal; [|done].
  intros [= <-]. exists geojsons, ts, first, final. split_and!; try done.
  - rewrite lookup_insert_ne by (apply not_eq_sym, paths_differ).
    rewrite lookup_insert_ne by (apply not_eq_sym, paths_differ).
    apply lookup_insert_eq.
  - apply lookup_insert_eq.
Qed.

End render_facts.

(** ** The path reader *)

Lemma re_split_cons sep var : ∃ seg segs, re_split sep var = seg :: segs.
Proof.
  destruct var as [|c rest]; simpl; [by eauto|].
  destruct (Ascii.eqb c sep); [by eauto|].
  destruct (re_split sep rest); eauto.
Qed.

(** Putting the separator back between the pieces gives the path again. *)
Lemma concat_re_split sep var :
  String.concat (String sep EmptyString) (re_split sep var) = var.
Proof.
  induction var as [|c rest IH]; simpl; [done|].
  destruct (Ascii.eqb_spec c sep) as [->|Hne].
  - destruct (re_split_cons sep rest) as (seg & segs & Hsplit).
    rewrite Hsplit in *. simpl. by rewrite <- IH.
  - destruct (re_split sep rest) as [|seg segs]; [by rewrite <- IH|].
    rewrite <- IH. by destruct segs.
Qed.

(** No piece contains the separator. *)
Lemma re_split_free sep var :
  Forall (λ seg, sep ∉ String.list_ascii_of_string seg) (re_split sep var).
Proof.
  induction var as [|c rest IH]; simpl.
  - repeat constructor. simpl. by intros ?%elem_of_nil.
  - destruct (Ascii.eqb_spec c sep) as [->|Hne].
    + constructor; [|done]. simpl. by intros ?%elem_of_nil.
    + destruct (re_split sep rest) as [|seg segs].
      * repeat constructor. simpl. intros [->|?%elem_of_nil]%elem_of_cons; done.
      * inversion IH as [|? ? Hseg Hsegs]; subst. constructor; [|done].
        simpl. intros [->|?]%elem_of_cons; done.
Qed.

Lemma lookup_key_Ok v k w :
  lookup_key v k = Ok w ↔ ∃ d, v = Dict d ∧ assoc d k = Some w.
Proof.
  destruct v; simpl; try (split; [done | by intros (? & [=] & _)]).
  rewrite or_raise_Ok. split; [by eauto | by intros (? & [= <-] & ?)].
Qed.

Lemma lookup_key_Raise v k e :
  lookup_key v k = Raise e ↔ e = PathNotFound ∧ no_entry v k.
Proof.
  destruct v; simpl; try (split; [by intros [= <-] | by intros [-> _]]).
  rewrite or_raise_Raise. tauto.
Qed.

Lemma get_by_path_walks root items v :
  get_by_path root items = Ok v ↔ walks root items v.
Proof.
  revert root. induction items as [|k items IH]; intros root; simpl.
  - split; [intros [= <-]; constructor | by inversion 1].
  - rewrite bind_Ok. split.
    + intros (w & (d & -> & Hk)%lookup_key_Ok & Hrest%IH). by econstructor.
    + inversion 1 as [|d ? w ? ? Hk Hrest]; subst. exists w. split.
      * apply lookup_key_Ok. eauto.
      * by apply IH.
Qed.

Lemma get_by_path_Raise root items e :
  get_by_path root items = Raise e ↔
  e = PathNotFound ∧
  ∃ before k after v,
    items = before ++ k :: after ∧ walks root before v ∧ no_entry v k.
Proof.
  revert root. induction items as [|k items IH]; intros root; simpl.
  - split; [done|]. intros (_ & before & ? & ? & ? & Heq & _).
    by destruct before.
  - rewrite bind_Raise. split.
    + intros [[-> Hno]%lookup_key_Raise | (w & (d & -> & Hk)%lookup_key_Ok & Hrest)].
      * split; [done|]. exists [], k, items, root. split_and!; [done| constructor | done].
      * apply IH in Hrest as (-> & before & k' & after & v & -> & Hwalk & Hno).
        split; [done|]. exists (k :: before), k', after, v.
        split_and!; [done | by econstructor | done].
    + intros (-> & before & k' & after & v & Heq & Hwalk & Hno).
      destruct before as [|k0 before]; simpl in Heq; injection Heq as -> ->.
      * inversion Hwalk; subst. left. by apply lookup_key_Raise.
      * inversion Hwalk as [|d ? w ? ? Hk Hrest]; subst. right. exists w. split.
        -- apply lookup_key_Ok. eauto.
        -- apply IH. split; [done|]. by exists before, k', after, v.
Qed.

(** C7.  The path reader splits the path on ['/'] (the pieces hold no slash
    and, joined by slashes, give the path back) and walks the state with one
    key lookup per piece, left to right: it returns [v] exactly when the walk
    along all pieces ends at [v], and it fails, always with [PathNotFound],
    exactly when the walk reaches a value that is no mapping or lacks the
    next piece as a key.  On [{a: {b: {c: 42}}}], ["a/b/c"] reads 42 and
    ["a/x"] fails with [PathNotFound]. *)
Theorem read_var_walks :
  read_var Sample.nested "a/b/c" = Ok (Num 42) ∧
  read_var Sample.nested "a/x" = Raise PathNotFound ∧
  ∀ state var,
    let segments := re_split "/" var in
    String.concat "/" segments = var ∧
    Forall (λ seg, "/"%char ∉ String.list_ascii_of_string seg) segments ∧
    (∀ v, read_var state var = Ok v ↔ walks state segments v) ∧
    (∀ e, read_var state var = Raise e ↔
          e = PathNotFound ∧
          ∃ before k after v,
            segments = before ++ k :: after ∧ walks state before v ∧
            no_entry v k).
Proof.
  split_and!; [done | done |]. intros state var segments. split_and!.
  - apply concat_re_split.
  - apply re_split_free.
  - intros v. apply get_by_path_walks.
  - intros e. apply get_by_path_Raise.
Qed.

(** ** What [render] emits *)

Section render_properties.
Context `{!Numpy, !Pandas}.

(** A successful call, taken apart down to its three stages. *)
Lemma render_Ok_stages self start_time traj fs fs' :
  render self start_time traj fs = (fs', Ok ()) →
  ∃ geojsons coords values ts,
    fs' !! geodata_path self = Some (JsonDump geojsons) ∧
    render_extract self traj = Ok (coords, values) ∧
    render_timestamps self start_time = Ok ts ∧
    render_geojsons coords ts values = Ok geojsons ∧
    ts ≠ [].
Proof.
  intros (geojsons & ts & first & _ & Henc & Hfirst & _ & Hfile & _)%render_Ok.
  apply render_encode_Ok in Henc as (coords & values & ? & ? & ?).
  exists geojsons, coords, values, ts. split_and!; try done.
  by intros ->.
Qed.

(** The [j]-th feature of any collection carries the [j]-th instant of
    the timeline. *)
Lemma feature_time self start_time coords values ts geojsons c j f :
  render_timestamps self start_time = Ok ts →
  render_geojsons coords ts values = Ok geojsons →
  c ∈ geojsons → features c !! j = Some f →
  time f = IsoFormat (start_time + seconds (Z.of_nat j * step_time self)).
Proof.
  intros [_ Hts]%render_timestamps_Ok (entities & _ & _ & Hg)%render_geojsons_Ok
    [i Hi]%list_elem_of_lookup Hf.
  destruct (Hg i c Hi) as (coord & _ & [_ Hc]%render_collection_Ok).
  destruct (Hc j f Hf) as (t & ? & ? & ? & Ht & _ & _ & _ & _ & _ & ->).
  by rewrite (Hts j t Ht).
Qed.

(** C4.  Whenever [render] succeeds, it writes one collection per resolved
    entity coordinate, in order, and for an entity whose coordinate is
    [[lat, lon]] (possibly followed by further components) every feature
    of its collection has [geometry.coordinates == [lon, lat]]. *)
Theorem coordinates_swapped self start_time traj fs fs' :
  render self start_time traj fs = (fs', Ok ()) →
  ∃ geojsons coords values entities,
    fs' !! geodata_path self = Some (JsonDump geojsons) ∧
    render_extract self traj = Ok (coords, values) ∧
    py_iter coords = Ok entities ∧
    length geojsons = length entities ∧
    ∀ i c f lat lon more,
      geojsons !! i = Some c → f ∈ features c →
      entities !! i = Some (List (lat :: lon :: more)) →
      coordinates f = [lon; lat].
Proof.
  intros (geojsons & coords & values & ts & Hfile & Hex & _ & Hg & _)%render_Ok_stages.
  apply render_geojsons_Ok in Hg as (entities & Hit & Hlen & Hg).
  exists geojsons, coords, values, entities. split_and!; try done.
  intros i c f lat lon more Hi [j Hj]%list_elem_of_lookup Hcoord.
  destruct (Hg i c Hi) as (coord & Hcoord' & [_ Hc]%render_collection_Ok).
  destruct (Hc j f Hj) as (_ & _ & lon' & lat' & _ & _ & Hlon & Hlat & _ & -> & _).
  rewrite Hcoord in Hcoord'. injection Hcoord' as <-.
  simpl in Hlon, Hlat. by injection Hlon as <-; injection Hlat as <-.
Qed.

(** C6, as the code has it.  With a positive step duration of whole
    seconds ([step_time self] is an integer), whenever [render] succeeds:
    in every collection it writes, the feature timestamps increase strictly
    with the index, consecutive ones differ by exactly [step_time]
    seconds, and features at the same index of any two collections carry
    the same timestamp. *)
Theorem timestamps_increase self start_time traj fs fs' :
  0 < step_time self →
  render self start_time traj fs = (fs', Ok ()) →
  ∃ geojsons,
    fs' !! geodata_path self = Some (JsonDump geojsons) ∧
    (∀ c j k f f',
       c ∈ geojsons → features c !! j = Some f → features c !! k = Some f' →
       (j < k)%nat → instant (time f) < instant (time f')) ∧
    (∀ c j f f',
       c ∈ geojsons → features c !! j = Some f → features c !! S j = Some f' →
       instant (time f') - instant (time f) = seconds (step_time self)) ∧
    (∀ c c' j f f',
       c ∈ geojsons → c' ∈ geojsons →
       features c !! j = Some f → features c' !! j = Some f' →
       time f = time f').
Proof.
  intros Hstep (geojsons & coords & values & ts & Hfile & _ & Hts & Hg & _)%render_Ok_stages.
  exists geojsons. split_and!; [done | | |].
  - intros c j k f f' Hc Hf Hf' Hjk.
    rewrite (feature_time _ _ _ _ _ _ _ _ _ Hts Hg Hc Hf).
    rewrite (feature_time _ _ _ _ _ _ _ _ _ Hts Hg Hc Hf').
    unfold seconds. simpl. nia.
  - intros c j f f' Hc Hf Hf'.
    rewrite (feature_time _ _ _ _ _ _ _ _ _ Hts Hg Hc Hf).
    rewrite (feature_time _ _ _ _ _ _ _ _ _ Hts Hg Hc Hf').
    unfold seconds. simpl. lia.
  - intros c c' j f f' Hc Hc' Hf Hf'.
    rewrite (feature_time _ _ _ _ _ _ _ _ _ Hts Hg Hc Hf).
    by rewrite (feature_time _ _ _ _ _ _ _ _ _ Hts Hg Hc' Hf').
Qed.

(** C10.  Whenever [render] succeeds, all collections it writes have the
    same number of features: the smaller of the timeline length
    [num_episodes * num_steps_per_episode] and the number of value lists
    the extraction loop accumulated, the timeline being zipped against
    those lists. *)
Theorem feature_counts self start_time traj fs fs' :
  render self start_time traj fs = (fs', Ok ()) →
  ∃ geojsons coords values,
    fs' !! geodata_path self = Some (JsonDump geojsons) ∧
    render_extract self traj = Ok (coords, values) ∧
    ∀ c, c ∈ geojsons →
      Z.of_nat (length (features c)) =
        (num_episodes (simulation_metadata (config self))
         * num_steps_per_episode (simulation_metadata (config self)))
        `min` Z.of_nat (length values).
Proof.
  intros (geojsons & coords & values & ts & Hfile & Hex & Hts & Hg & Hne)%render_Ok_stages.
  exists geojsons, coords, values. split_and!; [done | done |].
  intros c [i Hi]%list_elem_of_lookup.
  apply render_timestamps_Ok in Hts as [Hlen _].
  apply render_geojsons_Ok in Hg as (entities & _ & _ & Hg).
  destruct (Hg i c Hi) as (coord & _ & [-> _]%render_collection_Ok).
  assert (0 < length ts)%nat by (destruct ts; [done | simpl; lia]).
  unfold timeline_length in Hlen. lia.
Qed.


(** C9, as the code has it, for any step duration and any answer of the
    operating system to [open].  [render] fails in exactly these ways.
    Either the failure arose while extracting, building the timeline or
    assembling the features, and then no file has been touched.  Or all of
    that succeeded, and
    - the geojson file could not be opened: [OSError], no file touched;
    - [json.dump] met a value it cannot encode: [TypeError], and the geojson
      file is left with the beginning of the text;
    - the html file could not be opened: [OSError], and the geojson file is
      written in full;
    - the timeline is empty: the [IndexError] of [timestamps[0]], and by
      then the geojson file is written in full and the html file has been
      opened and left empty. *)
Theorem failure_leaves can_open step self start_time traj fs fs' e :
  render_with can_open step self start_time traj fs = (fs', Raise e) ↔
  (render_encode_with step self start_time traj = Raise e ∧ fs' = fs) ∨
  (∃ geojsons ts,
     render_encode_with step self start_time traj = Ok (geojsons, ts) ∧
     ((can_open (geodata_path self) = false ∧ e = OSError ∧ fs' = fs) ∨
      (can_open (geodata_path self) = true ∧ dumpable geojsons = false ∧
       e = TypeError ∧
       fs' = <[geodata_path self := Truncated geojsons]> fs) ∨
      (can_open (geodata_path self) = true ∧ dumpable geojsons = true ∧
       can_open (geoplot_path self) = false ∧ e = OSError ∧
       fs' = <[geodata_path self := JsonDump geojsons]> fs) ∨
      (can_open (geodata_path self) = true ∧ dumpable geojsons = true ∧
       can_open (geoplot_path self) = true ∧ ts = [] ∧ e = IndexError ∧
       fs' = <[geoplot_path self := Empty]>
               (<[geodata_path self := JsonDump geojsons]> fs)))).
Proof.
  unfold render_with.
  destruct (render_encode_with step self start_time traj) as [[g ts]|e'].
  - destruct (can_open (geodata_path self)) eqn:Hdata; simpl.
    2: { split.
         - intros [= <- <-]. right. exists g, ts. split; [done|]. by left.
         - intros [[[=] _]|(? & ? & [= <- <-] & Hcases)].
           by destruct Hcases as [(_ & -> & ->)|[(? & _)|[(? & _)|(? & _)]]]. }
    destruct (dumpable g) eqn:Hdump; simpl.
    2: { split.
         - intros [= <- <-]. right. exists g, ts. split; [done|]. right. by left.
         - intros [[[=] _]|(? & ? & [= <- <-] & Hcases)].
           destruct Hcases as [(? & _)|[(_ & _ & -> & ->)|[(_ & ? & _)|(_ & ? & _)]]];
             done || congruence. }
    destruct (can_open (geoplot_path self)) eqn:Hplot; simpl.
    2: { split.
         - intros [= <- <-]. right. exists g, ts. split; [done|]. right. right. by left.
         - intros [[[=] _]|(? & ? & [= <- <-] & Hcases)].
           destruct Hcases
             as [(? & _)|[(_ & ? & _)|[(_ & _ & _ & -> & ->)|(_ & _ & ? & _)]]];
             done || congruence. }
    destruct ts as [|t ts]; simpl.
    + split.
      * intros [= <- <-]. right. exists g, []. split; [done|]. by do 3 right.
      * intros [[[=] _]|(? & ? & [= <- <-] & Hcases)].
        destruct Hcases
          as [(? & _)|[(_ & ? & _)|[(_ & _ & ? & _)|(_ & _ & _ & _ & -> & ->)]]];
          done || congruence.
    + destruct (last (t :: ts)) eqn:Hlast; [|by apply last_None in Hlast].
      split; [done|].
      intros [[[=] _]|(? & ? & [= <- <-] & Hcases)].
      destruct Hcases
        as [(? & _)|[(_ & ? & _)|[(_ & _ & ? & _)|(_ & _ & _ & ? & _)]]];
        done || congruence.
  - split.
    + intros [= <- <-]. by left.
    + by intros [[[= ->] ->]|(? & ? & [=] & _)].
Qed.


Lemma render_feature_Raise i lat lon more t value_list e :
  render_feature i (List (lat :: lon :: more)) (t, value_list) = Raise e →
  e = IndexError ∧ value_list !! i = None.
Proof.
  unfold render_feature. simpl.
  destruct (value_list !! i); simpl; [done|]. by intros [= <-].
Qed.

(** C8, as the code has it.  There is no length check; a value is looked
    up by the entity's index.  When the coordinates are pairs and some
    value list that meets a timestamp in the zip is shorter than the
    coordinate list, [render] fails with [IndexError] and touches no file.
    (A longer value list is accepted, its surplus ignored.) *)
Theorem short_values_fail self start_time traj fs coords values entities ts j t value_list :
  render_extract self traj = Ok (coords, values) →
  py_iter coords = Ok entities →
  (∀ coord, coord ∈ entities → ∃ lat lon more, coord = List (lat :: lon :: more)) →
  render_timestamps self start_time = Ok ts →
  ts !! j = Some t → values !! j = Some value_list →
  (length value_list < length entities)%nat →
  render self start_time traj fs = (fs, Raise IndexError).
Proof.
  intros Hex Hit Hpairs Hts Ht Hvl Hshort.
  assert (∃ e, render_geojsons coords ts values = Raise e) as [e Hg].
  { unfold render_geojsons. rewrite Hit. simpl.
    destruct (lookup_lt_is_Some_2 entities (length value_list) Hshort) as [coord Hcoord].
    destruct (Hpairs coord) as (lat & lon & more & ->);
      [by eapply list_elem_of_lookup_2|].
    assert (∃ e', mapM (render_feature (length value_list) (List (lat :: lon :: more)))
                       (zip ts values) = Raise e') as [e' Hfs].
    { apply (mapM_fails _ _ (t, value_list) IndexError).
      - eapply list_elem_of_lookup_2. apply lookup_zip_with_Some.
        by exists t, value_list.
      - unfold render_feature. simpl. by rewrite lookup_ge_None_2. }
    apply (mapM_fails _ _ (length value_list, List (lat :: lon :: more)) e').
    - eapply list_elem_of_lookup_2. by apply enumerate_lookup.
    - unfold render_collection. by rewrite Hfs. }
  assert (e = IndexError) as ->.
  { unfold render_geojsons in Hg. rewrite Hit in Hg. simpl in Hg.
    apply mapM_Raise in Hg as ([i coord] & Hin & Hc).
    apply list_elem_of_lookup in Hin as [k [-> Hk]%enumerate_lookup].
    destruct (Hpairs coord) as (lat & lon & more & ->);
      [by eapply list_elem_of_lookup_2|].
    unfold render_collection in Hc.
    apply bind_Raise in Hc as [Hc|(? & _ & [=])].
    apply mapM_Raise in Hc as ([t' vl'] & _ & Hf).
    by apply render_feature_Raise in Hf as [-> _]. }
  rewrite render_unfold, render_encode_unfold, Hex. simpl. rewrite Hts. simpl.
  by rewrite Hg.
Qed.

End render_properties.

(** ** Runs on the samples *)

Import Ordinary Sample.



(** C2, on the code: in the scenario ([num_episodes=2],
    [num_steps_per_episode=1], [step_time=3600], entities at
    [[1.0,2.0],[3.0,4.0]], episode values [[10,20]] and [[30,40]]) [render]
    writes 2 collections of one feature each; entity 0's only value is 10,
    at the start time, with coordinates [[2.0,1.0]].  The second episode's
    values 30 and 40 are not in the output. *)
Lemma scenario_two_episodes :
  let out := render (plot 2 1) new_year two_episodes ∅ in
  out.2 = Ok () ∧
  written out (plot 2 1) =
    Some (JsonDump
      [ {| features :=
             [ {| coordinates := [Num 2.0; Num 1.0]; value := Num 10;
                  time := IsoFormat new_year |} ] |};
        {| features :=
             [ {| coordinates := [Num 4.0; Num 3.0]; value := Num 20;
                  time := IsoFormat new_year |} ] |} ]).
Proof. vm_compute. done. Qed.

(** C3, on the code: for 3 episodes and 2 entities [render] writes 2
    collections of 2 features each, not of 3. *)
Lemma three_episodes_two_features :
  let out := render (plot 3 1) new_year three_episodes ∅ in
  length three_episodes = 3%nat ∧
  out.2 = Ok () ∧
  ∃ geojsons,
    written out (plot 3 1) = Some (JsonDump geojsons) ∧
    (length ∘ features) <$> geojsons = [2%nat; 2%nat].
Proof. vm_compute. split_and!; [done | done |]. eexists. split; reflexivity. Qed.

(** C5, on the code: with entities at [[1,2],[3,4]] in the first episode
    and at [[5,6],[7,8]] in the second and last one, the features carry the
    first episode's coordinates. *)
Lemma moving_episodes_keep_first :
  let out := render (plot 2 1) new_year moving_episodes ∅ in
  (last moving_episodes ≫= last) =
    Some (consumers moved_entities (nums2 30 40)) ∧
  out.2 = Ok () ∧
  ∃ geojsons,
    written out (plot 2 1) = Some (JsonDump geojsons) ∧
    (λ c, coordinates <$> features c) <$> geojsons =
      [ [[Num 2.0; Num 1.0]]; [[Num 4.0; Num 3.0]] ].
Proof. vm_compute. split_and!; [done | done |]. eexists. split; reflexivity. Qed.

Lemma coordinates_swapped_witness :
  ∃ geojsons coords values entities,
    (render (plot 2 1) new_year two_episodes ∅).1 !! geodata_path (plot 2 1)
      = Some (JsonDump geojsons) ∧
    render_extract (plot 2 1) two_episodes = Ok (coords, values) ∧
    py_iter coords = Ok entities ∧
    length geojsons = length entities ∧
    ∀ i c f lat lon more,
      geojsons !! i = Some c → f ∈ features c →
      entities !! i = Some (List (lat :: lon :: more)) →
      coordinates f = [lon; lat].
Proof.
  apply (coordinates_swapped (plot 2 1) new_year two_episodes ∅).
  vm_compute. reflexivity.
Defined.

(** Counterexample to C6 as stated: the step duration [1e-10] seconds is
    positive, and with it the call succeeds and gives both features of each
    collection the same timestamp, the start time.  pandas keeps whole
    nanoseconds, and one and two tenths of a nanosecond are cut to none. *)
Lemma tiny_step_repeats :
  let out := render_with (λ _, true) (Float tenth_of_ns) (plot 3 1) new_year
               three_episodes ∅ in
  SFltb (S754_zero false) tenth_of_ns = true ∧
  out.2 = Ok () ∧
  ∃ geojsons,
    written out (plot 3 1) = Some (JsonDump geojsons) ∧
    (λ c, time <$> features c) <$> geojsons =
      [ [IsoFormat new_year; IsoFormat new_year];
        [IsoFormat new_year; IsoFormat new_year] ].
Proof. vm_compute. split_and!; [done | done |]. eexists. split; reflexivity. Qed.

Lemma timestamps_increase_witness :
  0 < step_time (plot 3 1) ∧
  ∃ geojsons,
    written (render (plot 3 1) new_year three_episodes ∅) (plot 3 1)
      = Some (JsonDump geojsons) ∧
    (∀ c j k f f',
       c ∈ geojsons → features c !! j = Some f → features c !! k = Some f' →
       (j < k)%nat → instant (time f) < instant (time f')) ∧
    (∀ c j f f',
       c ∈ geojsons → features c !! j = Some f → features c !! S j = Some f' →
       instant (time f') - instant (time f) = seconds (step_time (plot 3 1))) ∧
    (∀ c c' j f f',
       c ∈ geojsons → c' ∈ geojsons →
       features c !! j = Some f → features c' !! j = Some f' →
       time f = time f').
Proof.
  split; [reflexivity|].
  apply (timestamps_increase (plot 3 1) new_year three_episodes ∅).
  - reflexivity.
  - vm_compute. reflexivity.
Defined.

Lemma feature_counts_witness :
  ∃ geojsons coords values,
    (render (plot 3 1) new_year three_episodes ∅).1 !! geodata_path (plot 3 1)
      = Some (JsonDump geojsons) ∧
    render_extract (plot 3 1) three_episodes = Ok (coords, values) ∧
    ∀ c, c ∈ geojsons →
      Z.of_nat (length (features c)) =
        (num_episodes (simulation_metadata (config (plot 3 1)))
         * num_steps_per_episode (simulation_metadata (config (plot 3 1))))
        `min` Z.of_nat (length values).
Proof.
  apply (feature_counts (plot 3 1) new_year three_episodes ∅).
  vm_compute. reflexivity.
Defined.

(** Counterexample to C8 as stated: the first episode resolves to three values for
    two coordinates, and [render] succeeds; the third value is dropped. *)
Lemma surplus_values_accepted :
  let out := render (plot 2 1) new_year surplus_episodes ∅ in
  render_extract (plot 2 1) surplus_episodes
    = Ok (two_entities, [[Num 10; Num 20; Num 99]]) ∧
  out.2 = Ok () ∧
  ∃ geojsons,
    written out (plot 2 1) = Some (JsonDump geojsons) ∧
    (λ c, value <$> features c) <$> geojsons = [ [Num 10]; [Num 20] ].
Proof. vm_compute. split_and!; [done | done |]. eexists. split; reflexivity. Qed.

Lemma short_values_fail_witness :
  render (plot 2 1) new_year short_episodes ∅ = (∅, Raise IndexError).
Proof.
  apply (short_values_fail (plot 2 1) new_year short_episodes ∅
           two_entities [[Num 10]] [nums2 1.0 2.0; nums2 3.0 4.0]
           [new_year; new_year + seconds 3600] 0 new_year [Num 10]).
  - vm_compute. reflexivity.
  - reflexivity.
  - intros coord [->|[->|[]%elem_of_nil]%elem_of_cons]%elem_of_cons;
      by eexists _, _, _.
  - vm_compute. reflexivity.
  - reflexivity.
  - reflexivity.
  - simpl. lia.
Defined.

(** Counterexample to C9 as stated: with [num_steps_per_episode = 0] the timeline is
    empty and [render] fails with [IndexError], after it has written the
    geojson file in full and created the html file. *)
Lemma failure_after_write :
  let out := render (plot 2 0) new_year two_episodes ∅ in
  out.2 = Raise IndexError ∧
  out.1 !! "sim.geojson" =
    Some (JsonDump [ {| features := [] |}; {| features := [] |} ]) ∧
  out.1 !! "sim.html" = Some Empty.
Proof. vm_compute. done. Qed.

(** With complex values the call fails in [json.dump]: the geojson file
    keeps the beginning of the text and the html file is never opened. *)
Lemma dump_stops_midway :
  let out := render_with (λ _, true) (Int 3600) (plot 2 1) new_year
               complex_episodes ∅ in
  out.2 = Raise TypeError ∧
  (∃ geojsons, out.1 !! "sim.geojson" = Some (Truncated geojsons)) ∧
  out.1 !! "sim.html" = None.
Proof. vm_compute. split_and!; [done | by eexists | done]. Qed.

(** When the html file cannot be opened the call fails after the geojson
    file has been written in full. *)
Lemma geojson_survives_refused_html :
  let out := render_with no_html (Int 3600) (plot 2 1) new_year
               two_episodes ∅ in
  out.2 = Raise OSError ∧
  (∃ geojsons, out.1 !! "sim.geojson" = Some (JsonDump geojsons)) ∧
  out.1 !! "sim.html" = None.
Proof. vm_compute. split_and!; [done | by eexists | done]. Qed.

Lemma failure_leaves_witness :
  let fs' := (render_with (λ _, true) (Int 3600) (plot 2 1) new_year
                complex_episodes ∅).1 in
  (render_encode_with (Int 3600) (plot 2 1) new_year complex_episodes
     = Raise TypeError ∧ fs' = ∅) ∨
  (∃ geojsons ts,
     render_encode_with (Int 3600) (plot 2 1) new_year complex_episodes
       = Ok (geojsons, ts) ∧
     (((λ _, true) (geodata_path (plot 2 1)) = false ∧ TypeError = OSError ∧ fs' = ∅) ∨
      ((λ _, true) (geodata_path (plot 2 1)) = true ∧ dumpable geojsons = false ∧
       TypeError = TypeError ∧
       fs' = <[geodata_path (plot 2 1) := Truncated geojsons]> ∅) ∨
      ((λ _, true) (geodata_path (plot 2 1)) = true ∧ dumpable geojsons = true ∧
       (λ _, true) (geoplot_path (plot 2 1)) = false ∧ TypeError = OSError ∧
       fs' = <[geodata_path (plot 2 1) := JsonDump geojsons]> ∅) ∨
      ((λ _, true) (geodata_path (plot 2 1)) = true ∧ dumpable geojsons = true ∧
       (λ _, true) (geoplot_path (plot 2 1)) = true ∧ ts = [] ∧
       TypeError = IndexError ∧
       fs' = <[geoplot_path (plot 2 1) := Empty]>
               (<[geodata_path (plot 2 1) := JsonDump geojsons]> ∅)))).
Proof.
  apply (proj1 (failure_leaves (λ _, true) (Int 3600) (plot 2 1) new_year
                  complex_episodes ∅ _ TypeError)).
  vm_compute. reflexivity.
Defined.

(** * Further properties *)

(** ** Paths *)

Lemma re_split_whole sep var :
  sep ∉ String.list_ascii_of_string var → re_split sep var = [var].
Proof.
  induction var as [|c rest IH]; simpl; [done|].
  intros Hnot. destruct (Ascii.eqb_spec c sep) as [->|Hne].
  - destruct Hnot. by left.
  - rewrite IH; [done|]. intros Hin. destruct Hnot. by right.
Qed.

Lemma re_split_app sep a b :
  re_split sep (a +:+ String sep b) = re_split sep a ++ re_split sep b.
Proof.
  induction a as [|c a IH]; simpl.
  - by rewrite Ascii.eqb_refl.
  - destruct (Ascii.eqb c sep); [by rewrite IH|].
    rewrite IH. by destruct (re_split_cons sep a) as (seg & segs & ->).
Qed.

Lemma get_by_path_app root items items' :
  get_by_path root (items ++ items') =
    get_by_path root items ≫= λ v, get_by_path v items'.
Proof.
  revert root. induction items as [|k items IH]; intros root; simpl; [done|].
  destruct (lookup_key root k); simpl; [apply IH | done].
Qed.

(** X1.  Splitting undoes joining: a non-empty list of pieces, none of which
    holds the separator, is what [re.split] finds in their join. *)
Theorem re_split_concat sep segments :
  segments ≠ [] →
  Forall (λ seg, sep ∉ String.list_ascii_of_string seg) segments →
  re_split sep (String.concat (String sep EmptyString) segments) = segments.
Proof.
  intros Hne Hfree. induction Hfree as [|seg segs Hseg Hsegs IH]; [done|].
  destruct segs as [|seg' segs].
  - by apply re_split_whole.
  - change (String.concat (String sep EmptyString) (seg :: seg' :: segs))
      with (seg +:+ String sep (String.concat (String sep EmptyString) (seg' :: segs))).
    rewrite re_split_app, re_split_whole by done. simpl. f_equal.
    by apply IH.
Qed.

Lemma re_split_concat_witness :
  re_split "/" (String.concat "/" ["agents"; "consumers"; "coordinates"])
    = ["agents"; "consumers"; "coordinates"].
Proof.
  apply (re_split_concat "/" ["agents"; "consumers"; "coordinates"]).
  - discriminate.
  - repeat constructor; vm_compute;
      intros Hin; repeat (apply elem_of_cons in Hin as [[=]|Hin]);
      by apply elem_of_nil in Hin.
Defined.

(** X2.  Reading along [a/b] is reading along [a] and then, from the value
    found, along [b]; a failure of the first part is the failure of the
    whole.  In particular a leading, trailing or doubled slash asks for the
    key [""] at that place. *)
Theorem read_var_slash state a b :
  read_var state (a +:+ "/" +:+ b) =
    read_var state a ≫= λ v, read_var v b.
Proof.
  unfold read_var. change (a +:+ "/" +:+ b) with (a +:+ String "/" b).
  by rewrite re_split_app, get_by_path_app.
Qed.

(** ** What the extraction loop reads *)

Section extraction.
Context `{!Numpy, !Pandas}.

Lemma render_extract_step_read self traj values i :
  render_extract_step self traj values i =
    (traj !! i ?! IndexError) ≫= λ episode,
      read_episode self episode ≫= λ r, mret (r.1, values ++ [r.2]).
Proof.
  unfold render_extract_step, read_episode.
  destruct (traj !! i) as [episode|]; simpl; [|done].
  destruct (last episode) as [final_state|]; simpl; [|done].
  destruct (read_var final_state (entity_position self)); simpl; [|done].
  destruct (np_array_tolist _); simpl; [|done].
  destruct (read_var final_state (entity_property self)); simpl; [|done].
  by destruct (np_array_flatten_tolist _).
Qed.

(** The loop invariant: after the indices [k, k+n) the accumulators hold
    the coordinates of the last episode read and one more value list per
    episode, in order. *)
Lemma render_extract_loop_mapM self traj k n coords values :
  (k + n ≤ length traj)%nat →
  render_extract_loop self traj (seq k n) coords values =
    mapM (read_episode self) (take n (drop k traj)) ≫= λ reads,
      mret (default coords (fst <$> last reads), values ++ reads.*2).
Proof.
  revert k coords values. induction n as [|n IH]; intros k coords values Hk; simpl.
  - by rewrite app_nil_r.
  - destruct (lookup_lt_is_Some_2 traj k) as [episode Hep]; [lia|].
    rewrite (drop_S _ _ _ Hep). simpl.
    rewrite render_extract_step_read, Hep. simpl.
    destruct (read_episode self episode) as [[c flat]|e]; simpl; [|done].
    rewrite IH by lia.
    destruct (mapM (read_episode self) (take n (drop (S k) traj)))
      as [reads|e]; simpl; [|done].
    rewrite <- app_assoc. destruct reads as [|r reads]; [done|].
    change (last ((c, flat) :: r :: reads)) with (last (r :: reads)).
    destruct (last (r :: reads)) eqn:Hlast; [done|].
    by apply last_None in Hlast.
Qed.

Lemma render_extract_mapM self traj :
  render_extract self traj =
    mapM (read_episode self) (take (length traj - 1) traj) ≫= λ reads,
      mret (retained reads, reads.*2).
Proof.
  unfold render_extract. rewrite render_extract_loop_mapM by (simpl; lia).
  by rewrite drop_0.
Qed.

(** X3.  The loop with its two accumulators is a map over all episodes but the
    last: it succeeds exactly when each of them can be read, the value
    lists are theirs in order, and the coordinates are those of the last
    one read. *)
Theorem extraction_reads self traj :
  render_extract self traj =
    mapM (read_episode self) (take (length traj - 1) traj) ≫= λ reads,
      mret (retained reads, reads.*2).
Proof. apply render_extract_mapM. Qed.

Lemma read_episode_last self episode episode' :
  last episode = last episode' →
  read_episode self episode = read_episode self episode'.
Proof. unfold read_episode. by intros ->. Qed.

Lemma mapM_read_episode_last self episodes episodes' :
  last <$> episodes = last <$> episodes' →
  mapM (read_episode self) episodes = mapM (read_episode self) episodes'.
Proof.
  revert episodes'. induction episodes as [|ep episodes IH];
    intros [|ep' episodes']; simpl; try done.
  intros [= Hlast Hrest]. by rewrite (read_episode_last _ _ _ Hlast), (IH _ Hrest).
Qed.

(** [render] sees a trajectory only through the final states of all its
    episodes but the last. *)
Lemma render_final_states self start_time traj traj' fs :
  last <$> take (length traj - 1) traj = last <$> take (length traj' - 1) traj' →
  render self start_time traj fs = render self start_time traj' fs.
Proof.
  intros Hlast. rewrite !render_unfold, !render_encode_unfold.
  by rewrite !render_extract_mapM, (mapM_read_episode_last _ _ _ Hlast).
Qed.

(** X4.  The last episode of a trajectory is never read: whatever it holds, the
    outcome and the files are the same. *)
Theorem last_episode_unread self start_time traj episode episode' fs :
  render self start_time (traj ++ [episode]) fs =
    render self start_time (traj ++ [episode']) fs.
Proof.
  apply render_final_states. rewrite !length_app. simpl.
  replace (length traj + 1 - 1)%nat with (length traj) by lia.
  by rewrite !take_app_length.
Qed.

(** X5.  Of an episode only the final state counts: replacing an episode by
    one with the same final state changes neither outcome nor files. *)
Theorem final_state_only self start_time traj i episode episode' fs :
  traj !! i = Some episode → last episode' = last episode →
  render self start_time (<[i:=episode']> traj) fs =
    render self start_time traj fs.
Proof.
  intros Hep Hlast. apply render_final_states.
  rewrite length_insert, !fmap_take, list_fmap_insert, Hlast.
  f_equal. apply list_insert_id. by rewrite list_lookup_fmap, Hep.
Qed.

End extraction.

(** ** Where the emitted data comes from *)

Section provenance.
Context `{!Numpy, !Pandas}.

Lemma read_episode_Ok self episode coords flat :
  read_episode self episode = Ok (coords, flat) →
  ∃ final_state position property,
    last episode = Some final_state ∧
    read_var final_state (entity_position self) = Ok position ∧
    np_array_tolist position = Ok coords ∧
    read_var final_state (entity_property self) = Ok property ∧
    np_array_flatten_tolist property = Ok flat.
Proof.
  unfold read_episode. intros Hread.
  apply bind_Ok in Hread as (final_state & Hlast%or_raise_Ok & Hread).
  apply bind_Ok in Hread as (position & Hpos & Hread).
  apply bind_Ok in Hread as (c & Hc & Hread).
  apply bind_Ok in Hread as (property & Hprop & Hread).
  apply bind_Ok in Hread as (fl & Hflat & [= <- <-]).
  by exists final_state, position, property.
Qed.

Lemma render_extract_Ok_reads self traj coords values :
  render_extract self traj = Ok (coords, values) →
  ∃ reads,
    Forall2 (λ episode r, read_episode self episode = Ok r)
      (take (length traj - 1) traj) reads ∧
    coords = retained reads ∧ values = reads.*2.
Proof.
  rewrite render_extract_mapM, bind_Ok.
  intros (reads & Hreads%mapM_Ok & [= <- <-]). by exists reads.
Qed.

(** X6.  The value of feature [j] in collection [i] is the [i]-th of the
    flattened values that the feature path gives on the final state of
    episode [j]. *)
Theorem feature_values self start_time traj fs fs' :
  render self start_time traj fs = (fs', Ok ()) →
  ∃ geojsons,
    fs' !! geodata_path self = Some (JsonDump geojsons) ∧
    ∀ i c j f,
      geojsons !! i = Some c → features c !! j = Some f →
      ∃ episode final_state property flat,
        traj !! j = Some episode ∧ last episode = Some final_state ∧
        read_var final_state (entity_property self) = Ok property ∧
        np_array_flatten_tolist property = Ok flat ∧
        flat !! i = Some (value f).
Proof.
  intros (geojsons & coords & values & ts & Hfile & Hex & _ & Hg & _)%render_Ok_stages.
  exists geojsons. split; [done|]. intros i c j f Hi Hj.
  apply render_geojsons_Ok in Hg as (entities & _ & _ & Hg).
  destruct (Hg i c Hi) as (coord & _ & [_ Hc]%render_collection_Ok).
  destruct (Hc j f Hj) as (_ & flat & _ & _ & _ & Hflat & _ & _ & Hv & _).
  apply render_extract_Ok_reads in Hex as (reads & Hreads & _ & ->).
  apply list_lookup_fmap_Some in Hflat as ([c' flat'] & -> & Hr). simpl in *.
  destruct (Forall2_lookup_r _ _ _ _ _ Hreads Hr) as (episode & Hep & Hread).
  apply lookup_take_Some in Hep as [Hep _].
  apply read_episode_Ok in Hread as (st & _ & property & ? & _ & _ & ? & ?).
  by exists episode, st, property, flat'.
Qed.

(** X7.  Every collection's coordinates are read from one state: the final
    state of the last episode the loop reads, which is the one before the
    trajectory's last.  Collection [i] takes element [i] of what the
    coordinate path gives there, and each of its features swaps that
    element's first two components. *)
Theorem feature_coordinates self start_time traj fs fs' :
  render self start_time traj fs = (fs', Ok ()) →
  ∃ geojsons,
    fs' !! geodata_path self = Some (JsonDump geojsons) ∧
    ∀ i c,
      geojsons !! i = Some c →
      ∃ episode final_state position coords entities coord,
        (2 ≤ length traj)%nat ∧
        traj !! (length traj - 2)%nat = Some episode ∧
        last episode = Some final_state ∧
        read_var final_state (entity_position self) = Ok position ∧
        np_array_tolist position = Ok coords ∧
        py_iter coords = Ok entities ∧ entities !! i = Some coord ∧
        ∀ f, f ∈ features c →
          ∃ lon lat,
            py_getitem coord 1 = Ok lon ∧ py_getitem coord 0 = Ok lat ∧
            coordinates f = [lon; lat].
Proof.
  intros (geojsons & coords & values & ts & Hfile & Hex & _ & Hg & _)%render_Ok_stages.
  exists geojsons. split; [done|]. intros i c Hi.
  apply render_geojsons_Ok in Hg as (entities & Hit & _ & Hg).
  destruct (Hg i c Hi) as (coord & Hcoord & [_ Hc]%render_collection_Ok).
  apply render_extract_Ok_reads in Hex as (reads & Hreads & -> & _).
  unfold retained in Hit. destruct (last reads) as [[c' flat]|] eqn:Hlast.
  - rewrite last_lookup in Hlast.
    destruct (Forall2_lookup_r _ _ _ _ _ Hreads Hlast) as (episode & Hep & Hread).
    apply Forall2_length in Hreads. rewrite length_take in Hreads.
    assert (reads ≠ []) as Hne by (by intros ->).
    assert (0 < length reads)%nat by (destruct reads; [done | simpl; lia]).
    apply lookup_take_Some in Hep as [Hep _].
    replace (Init.Nat.pred (length reads)) with (length traj - 2)%nat in Hep by lia.
    apply read_episode_Ok in Hread as (st & position & _ & ? & ? & ? & _ & _).
    exists episode, st, position, c', entities, coord.
    split_and!; try done; [lia|].
    intros f [j Hj]%list_elem_of_lookup.
    destruct (Hc j f Hj) as (_ & _ & lon & lat & _ & _ & ? & ? & _ & ? & _).
    by exists lon, lat.
  - simpl in Hit. injection Hit as <-. by rewrite lookup_nil in Hcoord.
Qed.

(** X8.  The html document of a successful call: the access token and the
    visualization type of the options, the very collections that were
    written to the geojson file, the call's start time as [startTime] and,
    as [stopTime], the instant [(n - 1) * step_time] seconds later, [n]
    being [num_episodes * num_steps_per_episode]. *)
Theorem html_document self start_time traj fs fs' :
  render self start_time traj fs = (fs', Ok ()) →
  ∃ geojsons,
    fs' !! geodata_path self = Some (JsonDump geojsons) ∧
    fs' !! geoplot_path self =
      Some (Html (cesium_token self)
              (IsoFormat start_time)
              (IsoFormat (start_time + seconds
                 ((num_episodes (simulation_metadata (config self))
                   * num_steps_per_episode (simulation_metadata (config self)) - 1)
                  * step_time self)))
              geojsons (visualization_type self)).
Proof.
  intros (geojsons & ts & first & final & Henc & Hfirst & Hfinal & Hdata & Hplot)%render_Ok.
  exists geojsons. split; [done|]. rewrite Hplot.
  apply render_encode_Ok in Henc as (_ & _ & _ & [Hlen Hts]%render_timestamps_Ok & _).
  rewrite head_lookup in Hfirst. rewrite last_lookup in Hfinal.
  rewrite (Hts _ _ Hfirst), (Hts _ _ Hfinal).
  assert (0 < length ts)%nat by (by eapply lookup_lt_Some).
  unfold timeline_length in Hlen.
  replace (start_time + seconds (Z.of_nat 0 * step_time self)) with start_time
    by (unfold seconds; lia).
  by replace (Z.of_nat (Init.Nat.pred (length ts)))
    with (num_episodes (simulation_metadata (config self))
          * num_steps_per_episode (simulation_metadata (config self)) - 1) by lia.
Qed.

(** X9.  With a step duration that is not negative, every emitted feature lies
    in the time window the html document announces, from [startTime] to
    [stopTime]. *)
Theorem features_in_window self start_time traj fs fs' :
  0 ≤ step_time self →
  render self start_time traj fs = (fs', Ok ()) →
  ∃ geojsons startTime stopTime,
    fs' !! geodata_path self = Some (JsonDump geojsons) ∧
    fs' !! geoplot_path self =
      Some (Html (cesium_token self) startTime stopTime geojsons
                 (visualization_type self)) ∧
    ∀ c f, c ∈ geojsons → f ∈ features c →
      instant startTime ≤ instant (time f) ≤ instant stopTime.
Proof.
  intros Hstep Hrender.
  destruct (render_Ok _ _ _ _ _ Hrender)
    as (geojsons & ts & first & final & Henc & Hfirst & Hfinal & Hdata & Hplot).
  exists geojsons, (IsoFormat first), (IsoFormat final). split_and!; [done | done |].
  intros c f Hc [j Hj]%list_elem_of_lookup.
  apply render_encode_Ok in Henc as (coords & values & _ & Hts & Hg).
  rewrite (feature_time _ _ _ _ _ _ _ _ _ Hts Hg Hc Hj). simpl.
  apply list_elem_of_lookup in Hc as [i Hi].
  apply render_geojsons_Ok in Hg as (entities & _ & _ & Hg).
  destruct (Hg i c Hi) as (coord & _ & [Hlen _]%render_collection_Ok).
  apply lookup_lt_Some in Hj. rewrite Hlen in Hj.
  apply render_timestamps_Ok in Hts as [_ Hts].
  rewrite head_lookup in Hfirst. rewrite last_lookup in Hfinal.
  rewrite (Hts _ _ Hfirst), (Hts _ _ Hfinal). unfold seconds. nia.
Qed.

End provenance.

(** ** Files and failures *)

Lemma mapM_succeeds {A B} (f : A → result B) l :
  (∀ x, x ∈ l → ∃ y, f x = Ok y) → ∃ ys, mapM f l = Ok ys.
Proof.
  induction l as [|x l IH]; intros Hall; simpl; [by eexists|].
  destruct (Hall x) as [y ->]; [by left|].
  destruct IH as [ys ->]; [|by eexists].
  intros x' Hin. apply Hall. by right.
Qed.

(** The exception of [mapM] is that of the first failing call. *)
Lemma mapM_first_failure {A B} (f : A → result B) l x l' e :
  (∀ x', x' ∈ l → ∃ y, f x' = Ok y) → f x = Raise e →
  mapM f (l ++ x :: l') = Raise e.
Proof.
  intros Hall Hx. induction l as [|x' l IH]; simpl.
  - by rewrite Hx.
  - destruct (Hall x') as [y ->]; [by left|]. simpl.
    rewrite IH; [done|]. intros x'' Hin. apply Hall. by right.
Qed.

Section outcomes.
Context `{!Numpy, !Pandas}.

(** X10.  A call touches no file but its two outputs, whether it fails or not. *)
Theorem other_files_untouched self start_time traj fs path :
  path ≠ geodata_path self → path ≠ geoplot_path self →
  (render self start_time traj fs).1 !! path = fs !! path.
Proof.
  intros Hdata Hplot. rewrite render_unfold.
  destruct (render_encode self start_time traj) as [[geojsons ts]|e]; [|done].
  destruct (dumpable geojsons); simpl; [|by rewrite lookup_insert_ne].
  destruct (head ts), (last ts); simpl;
    by rewrite ?lookup_insert_ne by done.
Qed.

(** X11.  A call overwrites what an earlier call left: repeated on its own
    result with the same start time, it has the same outcome and leaves the
    files as they are. *)
Theorem render_again self start_time traj fs :
  render self start_time traj (render self start_time traj fs).1 =
    render self start_time traj fs.
Proof.
  rewrite !render_unfold.
  destruct (render_encode self start_time traj) as [[geojsons ts]|e]; [|done].
  destruct (dumpable geojsons); simpl; [|by rewrite insert_insert_eq].
  destruct (head ts), (last ts); simpl; f_equal; apply map_eq; intros path;
    (destruct (decide (path = geoplot_path self)) as [->|Hplot];
       [by rewrite !lookup_insert_eq|]);
    rewrite !(lookup_insert_ne _ (geoplot_path self)) by done;
    (destruct (decide (path = geodata_path self)) as [->|Hdata];
       [by rewrite !lookup_insert_eq|]);
    by rewrite !lookup_insert_ne by done.
Qed.

(** X12.  Without a timeline there is no success: when
    [num_episodes * num_steps_per_episode] is not positive the call fails
    on every trajectory. *)
Theorem empty_timeline_fails self start_time traj fs :
  num_episodes (simulation_metadata (config self))
    * num_steps_per_episode (simulation_metadata (config self)) ≤ 0 →
  ∃ e, (render self start_time traj fs).2 = Raise e.
Proof.
  intros Hn. destruct (render self start_time traj fs) as [fs' [[]|e]] eqn:Hrender;
    [|by eexists].
  apply render_Ok_stages in Hrender
    as (_ & _ & _ & ts & _ & _ & [Hlen _]%render_timestamps_Ok & _ & Hne).
  unfold timeline_length in Hlen. destruct ts; [done|]. simpl in Hlen. lia.
Qed.

(** X13.  An instant of the timeline that pandas cannot hold makes the call
    fail before it opens a file. *)
Theorem timeline_out_of_bounds self start_time traj fs i :
  (i < timeline_length self)%nat →
  timedelta_fits (seconds (Z.of_nat i * step_time self)) = false ∨
  timestamp_fits (start_time + seconds (Z.of_nat i * step_time self)) = false →
  ∃ e, render self start_time traj fs = (fs, Raise e).
Proof.
  intros Hi Hfits.
  assert (∃ e, render_timestamps self start_time = Raise e) as [e Hts].
  { assert (∃ e, render_timestamp self start_time i = Raise e) as [e He].
    { unfold render_timestamp, render_timestamp_with. simpl.
      destruct (timedelta_fits _); simpl; [|by eexists].
      destruct Hfits as [[=]| ->]. by eexists. }
    eapply mapM_fails; [|done].
    apply list_elem_of_lookup. exists i. by apply lookup_seq. }
  rewrite render_unfold, render_encode_unfold.
  destruct (render_extract self traj) as [[coords values]|e']; simpl;
    [rewrite Hts|]; by eexists.
Qed.

Lemma dumpable_true geojsons :
  (∀ c f, c ∈ geojsons → f ∈ features c →
     (∀ v, v ∈ coordinates f → json_encodable v = true) ∧
     json_encodable (value f) = true) →
  dumpable geojsons = true.
Proof.
  intros Hall. unfold dumpable.
  apply forallb_forall. intros c Hc%list_elem_of_In.
  apply forallb_forall. intros f Hf%list_elem_of_In.
  destruct (Hall c f Hc Hf) as [Hcoords Hvalue].
  apply andb_true_iff. split; [|done].
  apply forallb_forall. intros v Hv%list_elem_of_In. by apply Hcoords.
Qed.

(** X14.  Enough for success, for any step duration: the episodes read give
    a list of coordinates with two or more components each, the first two
    of which [json] can encode; every value list that meets a timestamp has
    a value for every coordinate and holds only values [json] can encode;
    the timeline is built and not empty; and both output files can be
    opened. *)
Theorem render_succeeds can_open step self start_time traj fs coords values entities ts :
  render_extract self traj = Ok (coords, values) →
  py_iter coords = Ok entities →
  (∀ coord, coord ∈ entities →
     ∃ lat lon more, coord = List (lat :: lon :: more) ∧
       json_encodable lat = true ∧ json_encodable lon = true) →
  render_timestamps_with step self start_time = Ok ts → ts ≠ [] →
  (∀ j t flat, ts !! j = Some t → values !! j = Some flat →
     (length entities ≤ length flat)%nat ∧
     ∀ v, v ∈ flat → json_encodable v = true) →
  can_open (geodata_path self) = true →
  can_open (geoplot_path self) = true →
  ∃ fs', render_with can_open step self start_time traj fs = (fs', Ok ()).
Proof.
  intros Hex Hit Hpairs Hts Hne Hlong Hdata Hplot.
  assert (∃ geojsons, render_geojsons coords ts values = Ok geojsons) as [geojsons Hg].
  { unfold render_geojsons. rewrite Hit. simpl. apply mapM_succeeds.
    intros [i coord] [k [-> Hk]%enumerate_lookup]%list_elem_of_lookup.
    destruct (Hpairs coord) as (lat & lon & more & -> & _);
      [by eapply list_elem_of_lookup_2|].
    unfold render_collection.
    destruct (mapM_succeeds (render_feature k (List (lat :: lon :: more)))
                (zip ts values)) as [features ->]; [|by eexists].
    intros [t flat] [j Hj]%list_elem_of_lookup.
    apply lookup_zip_with_Some in Hj as (t' & flat' & [= <- <-] & Ht & Hflat).
    unfold render_feature. simpl.
    destruct (lookup_lt_is_Some_2 flat k) as [v ->]; [|by eexists].
    apply lookup_lt_Some in Hk. destruct (Hlong j t flat Ht Hflat). lia. }
  assert (dumpable geojsons = true) as Hdump.
  { apply dumpable_true. intros c f [i Hi]%list_elem_of_lookup [j Hj]%list_elem_of_lookup.
    destruct (render_geojsons_Ok _ _ _ _ Hg) as (entities' & Hit' & _ & Hcs).
    rewrite Hit in Hit'. injection Hit' as <-.
    destruct (Hcs i c Hi) as (coord & Hcoord & [_ Hc]%render_collection_Ok).
    destruct (Hc j f Hj) as (t & flat & lon & lat & Ht & Hflat & Hlon & Hlat & Hv & -> & _).
    destruct (Hpairs coord) as (lat' & lon' & more & -> & Hlat' & Hlon');
      [by eapply list_elem_of_lookup_2|].
    simpl in Hlon, Hlat. injection Hlon as <-. injection Hlat as <-.
    destruct (Hlong j t flat Ht Hflat) as [_ Hvalues]. split.
    - intros v [->|[->|[]%elem_of_nil]%elem_of_cons]%elem_of_cons; done.
    - apply Hvalues. by eapply list_elem_of_lookup_2. }
  unfold render_with, render_encode_with. rewrite Hex. simpl. rewrite Hts. simpl.
  rewrite Hg. simpl. rewrite Hdata, Hdump, Hplot. simpl.
  destruct ts as [|t ts]; [done|]. simpl.
  destruct (last (t :: ts)) eqn:Hlast; [by eexists|].
  by apply last_None in Hlast.
Qed.

(** X15.  Coordinates given as a flat list of numbers are an error: with a
    number as the first entity and a first feature to build, the call fails
    with [TypeError] and writes nothing. *)
Theorem scalar_coordinate_fails self start_time traj fs coords x entities flat values t ts :
  render_extract self traj = Ok (coords, flat :: values) →
  py_iter coords = Ok (Num x :: entities) →
  render_timestamps self start_time = Ok (t :: ts) →
  render self start_time traj fs = (fs, Raise TypeError).
Proof.
  intros Hex Hit Hts. rewrite render_unfold, render_encode_unfold.
  rewrite Hex. simpl. rewrite Hts. simpl.
  unfold render_geojsons. by rewrite Hit.
Qed.

(** X16.  The first episode that cannot be read decides the outcome: the call
    fails with that episode's exception and writes nothing.  Episodes are
    read in order, and only those before the last. *)
Theorem first_unreadable_episode self start_time traj fs i episode e :
  (∀ episode', episode' ∈ take i traj → ∃ r, read_episode self episode' = Ok r) →
  traj !! i = Some episode → (i < length traj - 1)%nat →
  read_episode self episode = Raise e →
  render self start_time traj fs = (fs, Raise e).
Proof.
  intros Hbefore Hep Hi Hread.
  assert (take (length traj - 1) traj
          = take i traj ++ episode :: drop (S i) (take (length traj - 1) traj)) as Hsplit.
  { rewrite <- (take_drop i (take (length traj - 1) traj)) at 1.
    rewrite take_take, Nat.min_l by lia. f_equal.
    apply drop_S. by rewrite lookup_take_lt. }
  rewrite render_unfold, render_encode_unfold.
  rewrite render_extract_mapM, Hsplit.
  by rewrite (mapM_first_failure _ _ _ _ e Hbefore Hread).
Qed.

(** An episode that recorded no state cannot be read. *)
Lemma read_episode_nil self : read_episode self [] = Raise IndexError.
Proof. done. Qed.

End outcomes.

(** ** Further runs on the samples *)

Lemma final_state_only_witness :
  render (plot 3 1) new_year
    (<[0%nat := [consumers two_entities (nums2 10 20)]]> long_episodes) ∅ =
  render (plot 3 1) new_year long_episodes ∅.
Proof.
  apply (final_state_only (plot 3 1) new_year long_episodes 0
           [consumers moved_entities (nums2 0 0); consumers two_entities (nums2 10 20)]
           [consumers two_entities (nums2 10 20)] ∅); reflexivity.
Defined.

Lemma feature_values_witness :
  ∃ geojsons,
    (render (plot 3 1) new_year long_episodes ∅).1 !! geodata_path (plot 3 1)
      = Some (JsonDump geojsons) ∧
    ∀ i c j f,
      geojsons !! i = Some c → features c !! j = Some f →
      ∃ episode final_state property flat,
        long_episodes !! j = Some episode ∧ last episode = Some final_state ∧
        read_var final_state (entity_property (plot 3 1)) = Ok property ∧
        np_array_flatten_tolist property = Ok flat ∧
        flat !! i = Some (value f).
Proof.
  apply (feature_values (plot 3 1) new_year long_episodes ∅).
  vm_compute. reflexivity.
Defined.

Lemma feature_coordinates_witness :
  ∃ geojsons,
    (render (plot 2 1) new_year moving_episodes ∅).1 !! geodata_path (plot 2 1)
      = Some (JsonDump geojsons) ∧
    ∀ i c,
      geojsons !! i = Some c →
      ∃ episode final_state position coords entities coord,
        (2 ≤ length moving_episodes)%nat ∧
        moving_episodes !! (length moving_episodes - 2)%nat = Some episode ∧
        last episode = Some final_state ∧
        read_var final_state (entity_position (plot 2 1)) = Ok position ∧
        np_array_tolist position = Ok coords ∧
        py_iter coords = Ok entities ∧ entities !! i = Some coord ∧
        ∀ f, f ∈ features c →
          ∃ lon lat,
            py_getitem coord 1 = Ok lon ∧ py_getitem coord 0 = Ok lat ∧
            coordinates f = [lon; lat].
Proof.
  apply (feature_coordinates (plot 2 1) new_year moving_episodes ∅).
  vm_compute. reflexivity.
Defined.

Lemma html_document_witness :
  ∃ geojsons,
    (render (plot 3 1) new_year three_episodes ∅).1 !! geodata_path (plot 3 1)
      = Some (JsonDump geojsons) ∧
    (render (plot 3 1) new_year three_episodes ∅).1 !! geoplot_path (plot 3 1) =
      Some (Html "token" (IsoFormat new_year)
              (IsoFormat (new_year + seconds ((3 * 1 - 1) * 3600)))
              geojsons "color").
Proof.
  apply (html_document (plot 3 1) new_year three_episodes ∅).
  vm_compute. reflexivity.
Defined.

Lemma features_in_window_witness :
  ∃ geojsons startTime stopTime,
    (render (plot 3 1) new_year three_episodes ∅).1 !! geodata_path (plot 3 1)
      = Some (JsonDump geojsons) ∧
    (render (plot 3 1) new_year three_episodes ∅).1 !! geoplot_path (plot 3 1) =
      Some (Html (cesium_token (plot 3 1)) startTime stopTime geojsons
                 (visualization_type (plot 3 1))) ∧
    ∀ c f, c ∈ geojsons → f ∈ features c →
      instant startTime ≤ instant (time f) ≤ instant stopTime.
Proof.
  apply (features_in_window (plot 3 1) new_year three_episodes ∅).
  - discriminate.
  - vm_compute. reflexivity.
Defined.

Lemma other_files_untouched_witness :
  (render (plot 2 1) new_year two_episodes {["notes.txt" := Empty]}).1 !! "notes.txt"
    = ({["notes.txt" := Empty]} : files) !! "notes.txt".
Proof.
  apply (other_files_untouched (plot 2 1) new_year two_episodes
           {["notes.txt" := Empty]} "notes.txt"); discriminate.
Defined.

Lemma empty_timeline_fails_witness :
  ∃ e, (render (plot 0 1) new_year two_episodes ∅).2 = Raise e.
Proof.
  apply (empty_timeline_fails (plot 0 1) new_year two_episodes ∅).
  discriminate.
Defined.

Lemma timeline_out_of_bounds_witness :
  ∃ e, render (plot_every 10000000000 2 1) new_year two_episodes ∅
       = (∅, Raise e).
Proof.
  apply (timeline_out_of_bounds (plot_every 10000000000 2 1) new_year
           two_episodes ∅ 1).
  - vm_compute. lia.
  - left. reflexivity.
Defined.

Lemma render_succeeds_witness :
  ∃ fs', render_with (λ _, true) (Float half_second) (plot 2 1) new_year
           two_episodes ∅ = (fs', Ok ()).
Proof.
  apply (render_succeeds (λ _, true) (Float half_second) (plot 2 1) new_year
           two_episodes ∅
           two_entities [[Num 10; Num 20]] [nums2 1.0 2.0; nums2 3.0 4.0]
           [new_year; new_year + 500000000]).
  - vm_compute. reflexivity.
  - reflexivity.
  - intros coord [->|[->|[]%elem_of_nil]%elem_of_cons]%elem_of_cons;
      by eexists _, _, _.
  - vm_compute. reflexivity.
  - discriminate.
  - intros [|[|j]] t flat; simpl; try discriminate.
    intros _ [= <-]. split; [simpl; lia|].
    intros v [->|[->|[]%elem_of_nil]%elem_of_cons]%elem_of_cons; reflexivity.
  - reflexivity.
  - reflexivity.
Defined.

Lemma scalar_coordinate_fails_witness :
  render (plot 2 1) new_year flat_episodes ∅ = (∅, Raise TypeError).
Proof.
  apply (scalar_coordinate_fails (plot 2 1) new_year flat_episodes ∅
           (nums2 1.0 2.0) 1.0 [Num 2.0] [Num 10; Num 20] []
           new_year [new_year + seconds 3600]).
  - vm_compute. reflexivity.
  - reflexivity.
  - vm_compute. reflexivity.
Defined.

Lemma first_unreadable_episode_witness :
  render (plot 2 1) new_year hollow_episodes ∅ = (∅, Raise IndexError).
Proof.
  apply (first_unreadable_episode (plot 2 1) new_year hollow_episodes ∅ 0 []).
  - by intros episode' []%elem_of_nil.
  - reflexivity.
  - simpl. lia.
  - reflexivity.
Defined.
